(** * examples/docqa/extract-then-chat.py

    A shallow embedding of the script's own logic: the two data records
    ([BookInfo], [BookInfoTool]), the tool's [handle] method, the two agent
    handlers ([Assistant.book_info], [Extractor.handle_message_fallback]) and
    the configuration and task wiring done by [chat].

    Python [str] values are modelled by [string], one [ascii] per code point,
    hence code points below 256; Python [int] by [Z]; [None] by [option]. *)

From Stdlib Require Import Bool Ascii String List ZArith Lia DecimalString.
Import ListNotations.
Open Scope string_scope.

(** ** The Python built-ins the script relies on *)

Module Py.

Definition chr (n : nat) : ascii := ascii_of_nat n.

Definition squote : ascii := Eval cbv in chr 39.
Definition dquote : ascii := Eval cbv in chr 34.
Definition backslash : ascii := Eval cbv in chr 92.
Definition tab : ascii := Eval cbv in chr 9.
Definition lf : ascii := Eval cbv in chr 10.
Definition cr : ascii := Eval cbv in chr 13.

(** A one-character [str]. *)
Definition str1 (c : ascii) : string := String c EmptyString.

(** The line break of a triple-quoted literal. *)
Definition nl : string := str1 lf.

(** [c in s] for a one-character [c]. *)
Fixpoint has_char (c : ascii) (s : string) : bool :=
  match s with
  | EmptyString => false
  | String a s' => (a =? c)%char || has_char c s'
  end.

(** [sub in s]. *)
Fixpoint contains (sub s : string) : bool :=
  String.prefix sub s ||
  match s with
  | EmptyString => false
  | String _ s' => contains sub s'
  end.

(** [s.startswith(p)]. *)
Definition startswith (p s : string) : bool := String.prefix p s.

(** [s.endswith(p)]. *)
Fixpoint endswith (p s : string) : bool :=
  (s =? p) ||
  match s with
  | EmptyString => false
  | String _ s' => endswith p s'
  end.

(** [s.replace(old, new)] when [old] and [new] are one character long:
    every occurrence is replaced. *)
Fixpoint replace (old new : ascii) (s : string) : string :=
  match s with
  | EmptyString => EmptyString
  | String a s' =>
      String (if (a =? old)%char then new else a) (replace old new s')
  end.

(** [sep.join(l)]. *)
Fixpoint join (sep : string) (l : list string) : string :=
  match l with
  | [] => EmptyString
  | [x] => x
  | x :: l' => x ++ sep ++ join sep l'
  end.

(** [str.isprintable] on one code point below 256: the ASCII range
    0x20..0x7e, and Latin-1 from 0xa1 on except the soft hyphen 0xad. *)
Definition isprintable (c : ascii) : bool :=
  let n := nat_of_ascii c in
  ((32 <=? n) && (n <? 127) || (161 <=? n) && negb (n =? 173))%nat.

Definition hexdigit (n : nat) : ascii :=
  match String.get n "0123456789abcdef" with
  | Some c => c
  | None => "0"%char
  end.

(** The quote [repr] puts around a [str]: a double quote when the text has
    a single quote and no double quote, a single quote otherwise. *)
Definition repr_quote (s : string) : ascii :=
  if has_char squote s && negb (has_char dquote s) then dquote else squote.

(** How [repr] writes one character inside the quote [q]. *)
Definition repr_char (q c : ascii) : string :=
  if (c =? q)%char || (c =? backslash)%char then String backslash (str1 c)
  else if (c =? tab)%char then String backslash "t"
  else if (c =? lf)%char then String backslash "n"
  else if (c =? cr)%char then String backslash "r"
  else if isprintable c then str1 c
  else
    let n := nat_of_ascii c in
    String backslash
      (String "x" (String (hexdigit (n / 16)) (str1 (hexdigit (n mod 16))))).

Fixpoint repr_body (q : ascii) (s : string) : string :=
  match s with
  | EmptyString => EmptyString
  | String c s' => repr_char q c ++ repr_body q s'
  end.

(** [repr(s)] for a [str]. *)
Definition repr_str (s : string) : string :=
  let q := repr_quote s in
  String q (repr_body q s ++ str1 q).

(** [repr(n)] for an [int]: decimal, with a minus sign when negative. *)
Definition repr_int (n : Z) : string := NilZero.string_of_int (Z.to_int n).

(** [str(l)] for a list whose elements print as [l]:
    brackets around the elements' [repr], separated by comma and space. *)
Definition str_list (l : list string) : string :=
  "[" ++ join ", " l ++ "]".

End Py.

(** ** Data model *)

(** [class BookInfo(BaseModel)]. *)
Record BookInfo : Type := mkBookInfo {
  title : string;
  author : string;
  year : Z
}.

(** [class BookInfoTool(ToolMessage)]. *)
Record BookInfoTool : Type := mkBookInfoTool {
  request : string;
  purpose : string;
  info : list BookInfo
}.

(** The constructor call [cls(info=...)]: [request] and [purpose] take their
    class defaults. *)
Definition BookInfoTool_new (info : list BookInfo) : BookInfoTool :=
  {| request := "book_info";
     purpose := "Collect <info> about Books";
     info := info |}.

(** [BookInfoTool.examples]. *)
Definition examples : list BookInfoTool :=
  [ BookInfoTool_new
      [ mkBookInfo "The Hobbit" "J.R.R. Tolkien" 1937;
        mkBookInfo "The Great Gatsby" "F. Scott Fitzgerald" 1925 ] ].

(** [repr] of a [BookInfo]: the class name and the fields as
    [name=repr(value)], which is how a pydantic model prints. *)
Definition BookInfo_repr (b : BookInfo) : string :=
  "BookInfo(" ++
  Py.join ", "
    [ "title=" ++ Py.repr_str (title b);
      "author=" ++ Py.repr_str (author b);
      "year=" ++ Py.repr_int (year b) ] ++
  ")".

(** ** The tool and the two agent handlers *)

Section Handlers.

(** [DONE], [PASS] and [SEND_TO] come from [langroid.utils.constants];
    the handlers only concatenate them, so they stay abstract here. *)
Variables DONE PASS SEND_TO : string.

(** The state of a [ChatAgent] ([self]) and the library's [ChatDocument]. *)
Variables Agent ChatDocument : Type.

(** The argument of a handler declared [msg: str | ChatDocument]. *)
Inductive Message : Type :=
| MsgStr (s : string)
| MsgDoc (d : ChatDocument).

(** [ChatAgent.has_tool_message_attempt], the library's check that a
    message looks like an attempt to use a tool. It is handed [self] and the
    message, two objects it can write to, so it gives its verdict together
    with the agent and the message as it leaves them. *)
Variable has_tool_message_attempt :
  Agent -> Message -> bool * Agent * Message.

(** [BookInfoTool.handle]. *)
Definition handle (self : BookInfoTool) : string :=
  DONE ++ " " ++ PASS.

(** The local [info_str] of [Assistant.book_info]. *)
Definition info_str (msg : BookInfoTool) : string :=
  Py.replace "}" "]"
    (Py.replace "{" "[" (Py.str_list (map BookInfo_repr (info msg)))).

(** The text after [{info_str}] in the f-string of [Assistant.book_info]. *)
Definition book_info_trailer : string :=
  " " ++ Py.nl ++
  "        ".

(** The text between [{SEND_TO}] and [{info_str}] in that f-string. *)
Definition book_info_header : string :=
  "LLM" ++ Py.nl ++
  "        Below is INFO about various books, you received from the Extractor." ++ Py.nl ++
  "        Now ask the user what help they need, and respond ONLY based on this INFO." ++ Py.nl ++
  "        " ++ Py.nl ++
  "        INFO: " ++ Py.nl ++
  "        ".

(** [Assistant.book_info]: the returned text, and [self], which the method
    leaves as it was. *)
Definition book_info (self : Agent) (msg : BookInfoTool) : string * Agent :=
  let info_str := info_str msg in
  (SEND_TO ++ book_info_header ++ info_str ++ book_info_trailer, self).

(** The literal returned by [Extractor.handle_message_fallback]. *)
Definition nudge : string :=
  Py.nl ++
  "            You must use the " ++ Py.str1 Py.dquote ++ "book_info" ++
    Py.str1 Py.dquote ++ " tool to present the info." ++ Py.nl ++
  "            You either forgot to use it, or you used it with the wrong format." ++ Py.nl ++
  "            Make sure all fields are filled out and pay attention to the " ++ Py.nl ++
  "            required types of the fields." ++ Py.nl ++
  "            ".

(** [Extractor.handle_message_fallback]: the [if] has no [else], so the
    method falls off its end and returns [None] when the check fails. The
    call of the check is all the method does to [self] and [msg], which come
    back as the check left them. *)
Definition handle_message_fallback (self : Agent) (msg : Message)
  : option string * Agent * Message :=
  let '(attempt, self', msg') := has_tool_message_attempt self msg in
  if attempt then (Some nudge, self', msg') else (None, self', msg').

End Handlers.

Arguments MsgStr {ChatDocument} s.
Arguments MsgDoc {ChatDocument} d.
Arguments book_info SEND_TO {Agent} self msg.
Arguments handle_message_fallback {Agent ChatDocument} has_tool_message_attempt self msg.

(** ** The configuration records built by [chat] *)

(** [Settings(debug=..., cache=...)]. *)
Module Settings.
Record t : Type := mk { debug : bool; cache : bool }.
End Settings.

(** The value of [model or lm.OpenAIChatModel.GPT4_TURBO]: the given name, or
    the library's enumeration member. *)
Inductive ChatModel : Type :=
| ModelName (name : string)
| GPT4_TURBO.

(** [lm.OpenAIGPTConfig]. *)
Module OpenAIGPTConfig.
Record t : Type := mk { chat_model : ChatModel; chat_context_length : Z }.
End OpenAIGPTConfig.

(** [ParsingConfig]. *)
Module ParsingConfig.
Record t : Type := mk {
  chunk_size : Z;
  overlap : Z;
  n_similar_docs : Z;
  n_neighbor_ids : Z
}.
End ParsingConfig.

(** [lr.embedding_models.SentenceTransformerEmbeddingsConfig]. *)
Module SentenceTransformerEmbeddingsConfig.
Record t : Type := mk { model_type : string; model_name : string }.
End SentenceTransformerEmbeddingsConfig.

(** [lr.vector_store.LanceDBConfig]. *)
Module LanceDBConfig.
Record t : Type := mk {
  collection_name : string;
  replace_collection : bool;
  storage_path : string;
  embedding : SentenceTransformerEmbeddingsConfig.t
}.
End LanceDBConfig.

(** [DocChatAgentConfig]. *)
Module DocChatAgentConfig.
Record t : Type := mk {
  llm : OpenAIGPTConfig.t;
  n_neighbor_chunks : Z;
  parsing : ParsingConfig.t;
  vecdb : LanceDBConfig.t;
  cross_encoder_reranking_model : string
}.
End DocChatAgentConfig.

(** [ChatAgentConfig(llm=..., vecdb=None)]. *)
Module ChatAgentConfig.
Record t : Type := mk {
  llm : OpenAIGPTConfig.t;
  vecdb : option LanceDBConfig.t
}.
End ChatAgentConfig.

(** [langroid.mytypes.Entity], as far as the script names it. *)
Inductive Entity : Type := LLM.

(** The agent and task variables of [chat]. *)
Inductive AgentVar : Type := doc_agent | extractor_agent | assistant_agent.
Inductive TaskVar : Type := doc_task | extractor_task | assistant_task.

(** The tool classes given to [enable_message]. *)
Inductive ToolClass : Type := BookInfoTool_cls | RecipientTool_cls.

(** The keyword arguments of a [Task(...)] call; [None] is an argument the
    call leaves to the library's default. *)
Module TaskArgs.
Record t : Type := mk {
  agent : AgentVar;
  name : string;
  interactive : option bool;
  system_message : option string;
  done_if_no_response : option (list Entity);
  done_if_response : option (list Entity)
}.
End TaskArgs.

(** ** The script as the sequence of calls it makes *)

(** One statement of [chat]: a call into the library or the runtime. *)
Inductive Call : Type :=
| print (text : string)
| load_dotenv
| set_global (s : Settings.t)
| DocChatAgent_new (cfg : DocChatAgentConfig.t)
| ingest_doc_paths (self : AgentVar) (paths : list string)
| ChatAgent_new (var : AgentVar) (cfg : ChatAgentConfig.t)
| enable_message (self : AgentVar) (tool : ToolClass) (use handle : option bool)
| Task_new (var : TaskVar) (args : TaskArgs.t)
| add_sub_task (self : TaskVar) (tasks : list TaskVar)
| run (self : TaskVar).

(** Python's [x or y] on a [str] [x]: the empty string is false. *)
Definition model_or (model : string) (default : ChatModel) : ChatModel :=
  match model with
  | EmptyString => default
  | _ => ModelName model
  end.

Section Chat.

(** [NO_ANSWER] of [langroid.utils.constants], spliced into the
    Extractor's system message. *)
Variable NO_ANSWER : string.

Definition greeting : string :=
  Py.nl ++
  "        Hello! I am your book info helper. " ++ Py.nl ++
  "        First I will get info about some books" ++ Py.nl ++
  "        ".

Definition extractor_system_message : string :=
  Py.nl ++
  "        You are an expert at understanding JSON function/tool specifications." ++ Py.nl ++
  "        You must extract information about various books from a document," ++ Py.nl ++
  "        to finally present the info using the `book_info` tool/function," ++ Py.nl ++
  "        but you do not have access to the document. " ++ Py.nl ++
  "        I can help with your questions about the document." ++ Py.nl ++
  "        You have to ask questions in these steps:" ++ Py.nl ++
  "        1. ask which books are in the document" ++ Py.nl ++
  "        2. for each book, ask the various pieces of info you need." ++ Py.nl ++
  "        " ++ Py.nl ++
  "        If I am unable to answer your question initially, try asking differently," ++ Py.nl ++
  "        and if I am still unable to answer after 3 tries, " ++ Py.nl ++
  "        fill in " ++ NO_ANSWER ++ " for that field. " ++ Py.nl ++
  "        Think step by step. " ++ Py.nl ++
  "        " ++ Py.nl ++
  "        Do not explain yourself, or say any extraneous things. " ++ Py.nl ++
  "        When you receive the answer, then ask for the next field, and so on." ++ Py.nl ++
  "        ".

Definition assistant_system_message : string :=
  Py.nl ++
  "        You are a helpful librarian, answering my (the user) questions about " ++ Py.nl ++
  "        books described in a certain document, and you do NOT know which " ++ Py.nl ++
  "        books are in the document." ++ Py.nl ++
  "        " ++ Py.nl ++
  "        FIRST you need to ask the " ++ Py.str1 Py.dquote ++ "Extractor" ++
    Py.str1 Py.dquote ++ " to collect information" ++ Py.nl ++
  "        about various books that are in a certain document. Address your request to the " ++ Py.nl ++
  "        Extractor using the 'recipient_message' tool/function. " ++ Py.nl ++
  "        " ++ Py.nl ++
  "        Once you receive the information, you should then ask me (the user) " ++ Py.nl ++
  "        what I need help with.                " ++ Py.nl ++
  "        ".

(** The body of [chat], statement by statement. *)
Definition chat (model : string) (debug no_cache : bool) : list Call :=
  let llm_cfg :=
    OpenAIGPTConfig.mk (model_or model GPT4_TURBO) 16000 in
  [ print greeting;
    load_dotenv;
    set_global (Settings.mk debug (negb no_cache));
    DocChatAgent_new
      (DocChatAgentConfig.mk
         llm_cfg
         2
         (ParsingConfig.mk 50 10 3 4)
         (LanceDBConfig.mk
            "book_info"
            true
            ".lancedb/data/"
            (SentenceTransformerEmbeddingsConfig.mk
               "sentence-transformer" "BAAI/bge-large-en-v1.5"))
         EmptyString);
    ingest_doc_paths doc_agent ["examples/docqa/books.txt"];
    Task_new doc_task
      (TaskArgs.mk doc_agent "DocAgent" None None (Some [LLM]) (Some [LLM]));
    ChatAgent_new extractor_agent (ChatAgentConfig.mk llm_cfg None);
    enable_message extractor_agent BookInfoTool_cls None None;
    Task_new extractor_task
      (TaskArgs.mk extractor_agent "Extractor" (Some false)
         (Some extractor_system_message) None None);
    ChatAgent_new assistant_agent (ChatAgentConfig.mk llm_cfg None);
    enable_message assistant_agent RecipientTool_cls None None;
    enable_message assistant_agent BookInfoTool_cls (Some false) (Some true);
    Task_new assistant_task
      (TaskArgs.mk assistant_agent "Assistant" (Some true)
         (Some assistant_system_message) None None);
    add_sub_task assistant_task [extractor_task];
    add_sub_task extractor_task [doc_task];
    run assistant_task ].

(** The command line, [Fire(chat)]: an option that is not given takes the
    default of the parameter of [chat] it stands for. *)
Definition chat_cli (model : option string) (debug no_cache : option bool)
  : list Call :=
  chat
    (match model with Some m => m | None => EmptyString end)
    (match debug with Some b => b | None => false end)
    (match no_cache with Some b => b | None => false end).

End Chat.

(** ** The task hierarchy the calls declare *)

Module TaskGraph.

Definition TaskVar_eqb (a b : TaskVar) : bool :=
  match a, b with
  | doc_task, doc_task
  | extractor_task, extractor_task
  | assistant_task, assistant_task => true
  | _, _ => false
  end.

(** What the library holds about the tasks: each task's parent and
    sub-tasks, and the tasks whose [run] was entered, oldest first. *)
Record t : Type := mk {
  parent_task : TaskVar -> option TaskVar;
  sub_tasks : TaskVar -> list TaskVar;
  entered : list TaskVar
}.

Definition empty : t :=
  {| parent_task := fun _ => None;
     sub_tasks := fun _ => [];
     entered := [] |}.

(** Modelled from the spec: [Task.add_sub_task] is the library's; the spec
    says of these calls that they declare a parent-to-child chain among
    the tasks. One task becomes a sub-task of [self], and [self] its
    parent. *)
Definition add_one (self task : TaskVar) (g : t) : t :=
  {| parent_task := fun v =>
       if TaskVar_eqb v task then Some self else parent_task g v;
     sub_tasks := fun v =>
       if TaskVar_eqb v self then (sub_tasks g v ++ [task])%list
       else sub_tasks g v;
     entered := entered g |}.

(** Modelled from the spec: [Task.run] is the library's blocking run
    entry point; all that is kept of it is which task it was called on. *)
Definition enter (self : TaskVar) (g : t) : t :=
  {| parent_task := parent_task g;
     sub_tasks := sub_tasks g;
     entered := (entered g ++ [self])%list |}.

(** The effect of one call of the script on the hierarchy. *)
Definition step (g : t) (c : Call) : t :=
  match c with
  | add_sub_task self tasks => fold_left (fun g' k => add_one self k g') tasks g
  | run self => enter self g
  | _ => g
  end.

Definition exec (calls : list Call) : t := fold_left step calls empty.

End TaskGraph.

(** ** What the calls of a run configure *)

(** The settings given to [set_global], in call order. *)
Definition global_settings (calls : list Call) : list Settings.t :=
  flat_map (fun c => match c with set_global s => [s] | _ => [] end) calls.

(** The configurations of the document-answering agents built, in call
    order. *)
Definition doc_agent_configs (calls : list Call) : list DocChatAgentConfig.t :=
  flat_map (fun c => match c with DocChatAgent_new cfg => [cfg] | _ => [] end)
    calls.

(** The arguments of the [Task(...)] call that binds [v], if there is one. *)
Definition task_args (calls : list Call) (v : TaskVar) : option TaskArgs.t :=
  hd_error
    (flat_map
       (fun c =>
          match c with
          | Task_new v' args => if TaskGraph.TaskVar_eqb v' v then [args] else []
          | _ => []
          end)
       calls).

(** ** Notions used to state the properties of the handlers *)

Fixpoint all_chars (p : ascii -> bool) (s : string) : bool :=
  match s with
  | EmptyString => true
  | String c s' => p c && all_chars p s'
  end.

(** The two replacements of [Assistant.book_info], on any text. *)
Definition brace_subst (s : string) : string :=
  Py.replace "}" "]" (Py.replace "{" "[" s).

Definition has_brace (s : string) : bool :=
  Py.has_char "{" s || Py.has_char "}" s.

(** The two replacements on one character. *)
Definition brace_char (c : ascii) : ascii :=
  let c' := if (c =? "{")%char then "["%char else c in
  if (c' =? "}")%char then "]"%char else c'.

(** A record with the two replacements done in its text fields. *)
Definition subst_book (b : BookInfo) : BookInfo :=
  {| title := brace_subst (title b);
     author := brace_subst (author b);
     year := year b |}.

(** Texts that [repr] only wraps in quotes: printable characters, no
    backslash, and not both kinds of quote. *)
Definition repr_verbatim (s : string) : bool :=
  all_chars (fun c => Py.isprintable c && negb (c =? Py.backslash)%char) s
  && negb (Py.has_char Py.squote s && Py.has_char Py.dquote s).

(** A text restates a payload when it holds every record's title, author
    and year. *)
Definition restates (msg : BookInfoTool) (out : string) : Prop :=
  forall b, In b (info msg) ->
    Py.contains (title b) out = true /\
    Py.contains (author b) out = true /\
    Py.contains (Py.repr_int (year b)) out = true.

(** The delivery property as the specification words it, for a handler
    output [out]: all records' values, no curly brace, the routing marker
    and recipient in front, the terminal markers at the end. *)
Definition delivers_as_specified (DONE PASS SEND_TO : string)
    (msg : BookInfoTool) (out : string) : Prop :=
  restates msg out /\
  has_brace out = false /\
  Py.startswith (SEND_TO ++ "LLM") out = true /\
  Py.endswith (DONE ++ " " ++ PASS) out = true.

(** The contract of the specification's info-delivery handler, for a handler
    output [out]: a restatement together with the two sentinel markers. *)
Definition restates_and_signals (DONE PASS : string)
    (msg : BookInfoTool) (out : string) : Prop :=
  restates msg out /\
  Py.contains DONE out = true /\
  Py.contains PASS out = true.

(** The markers as [langroid.utils.constants] spells them, for evaluating
    the handlers on concrete payloads. *)
Module Markers.
Definition DONE : string := "DONE".
Definition PASS : string := "__PASS__".
Definition SEND_TO : string := "SEND:".
Definition NO_ANSWER : string := "DO-NOT-KNOW".
End Markers.

(** A payload whose title and author carry curly braces. *)
Definition braces_payload : BookInfoTool :=
  BookInfoTool_new [ mkBookInfo "{Set} Theory" "A. {B}" 2001 ].

(** The payload of [BookInfoTool.examples]. *)
Definition example_payload : BookInfoTool :=
  BookInfoTool_new
    [ mkBookInfo "The Hobbit" "J.R.R. Tolkien" 1937;
      mkBookInfo "The Great Gatsby" "F. Scott Fitzgerald" 1925 ].









(** ** Further notions, for the properties beyond the handlers' contracts *)

(** [s.count(c)] for a one-character [c]. *)
Fixpoint count_char (c : ascii) (s : string) : nat :=
  match s with
  | EmptyString => 0
  | String a s' => (if (a =? c)%char then 1 else 0) + count_char c s'
  end.

(** A payload with the two replacements done in every record. *)
Definition subst_payload (msg : BookInfoTool) : BookInfoTool :=
  {| request := request msg;
     purpose := purpose msg;
     info := map subst_book (info msg) |}.

(** A record has no curly brace in its text fields. *)
Definition brace_free (b : BookInfo) : bool :=
  negb (has_brace (title b)) && negb (has_brace (author b)).

(** [repr] only puts quotes around the text fields of a record, and they
    have no curly brace. *)
Definition plain_book (b : BookInfo) : bool :=
  brace_free b && repr_verbatim (title b) && repr_verbatim (author b).

(** The language-model configurations given to the agents, in call order. *)
Definition llm_configs (calls : list Call) : list OpenAIGPTConfig.t :=
  flat_map
    (fun c =>
       match c with
       | DocChatAgent_new cfg => [DocChatAgentConfig.llm cfg]
       | ChatAgent_new _ cfg => [ChatAgentConfig.llm cfg]
       | _ => []
       end)
    calls.

(** The calls other than [set_global]. *)
Definition without_set_global (calls : list Call) : list Call :=
  filter (fun c => match c with set_global _ => false | _ => true end) calls.

(** A payload whose title has a line break and whose author has a tab. *)
Definition control_payload : BookInfoTool :=
  BookInfoTool_new
    [ mkBookInfo ("Two" ++ Py.nl ++ "Lines") ("A." ++ Py.str1 Py.tab ++ "B.") 1999 ].

(** * Properties *)

(** ** Facts about the string built-ins *)

Section StringFacts.

Import Py.

Lemma append_assoc (a b c : string) : (a ++ b) ++ c = a ++ b ++ c.
Proof. induction a as [|x a IH]; simpl; [reflexivity | now rewrite IH]. Qed.

Lemma append_empty_r (a : string) : a ++ EmptyString = a.
Proof. induction a as [|x a IH]; simpl; [reflexivity | now rewrite IH]. Qed.

Lemma prefix_append (p s : string) : String.prefix p (p ++ s) = true.
Proof.
  induction p as [|x p IH]; simpl.
  - now destruct s.
  - destruct (ascii_dec x x) as [_|ne]; [exact IH | now elim ne].
Qed.

Lemma prefix_split (p s : string) :
  String.prefix p s = true -> exists r, s = p ++ r.
Proof.
  revert s; induction p as [|x p IH]; intros s H.
  - now exists s.
  - destruct s as [|y s]; simpl in H; [discriminate|].
    destruct (ascii_dec x y) as [->|_]; [|discriminate].
    destruct (IH _ H) as [r ->]. now exists r.
Qed.

Lemma contains_split (sub s : string) :
  contains sub s = true <-> exists l r, s = l ++ sub ++ r.
Proof.
  split.
  - induction s as [|y s IH]; cbn [contains]; intros H.
    + rewrite orb_false_r in H. apply prefix_split in H as [r E].
      now exists EmptyString, r.
    + apply orb_true_iff in H as [H|H].
      * apply prefix_split in H as [r E].
        now exists EmptyString, r.
      * destruct (IH H) as (l & r & ->). now exists (String y l), r.
  - intros (l & r & ->). induction l as [|y l IH].
    + change (EmptyString ++ sub ++ r) with (sub ++ r).
      destruct (sub ++ r) eqn:E; cbn [contains]; rewrite <- E;
        now rewrite prefix_append.
    + change (String y l ++ sub ++ r) with (String y (l ++ sub ++ r)).
      cbn [contains]. rewrite IH. apply orb_true_r.
Qed.

Lemma contains_mid (l sub r : string) : contains sub (l ++ sub ++ r) = true.
Proof. apply contains_split. now exists l, r. Qed.

Lemma contains_trans (a b c : string) :
  contains a b = true -> contains b c = true -> contains a c = true.
Proof.
  rewrite !contains_split. intros (l1 & r1 & ->) (l2 & r2 & ->).
  exists (l2 ++ l1), (r1 ++ r2). now rewrite !append_assoc.
Qed.

Lemma length_append (a b : string) :
  String.length (a ++ b) = String.length a + String.length b.
Proof. induction a as [|x a IH]; simpl; [reflexivity | now rewrite IH]. Qed.

Lemma contains_length (sub s : string) :
  contains sub s = true -> String.length sub <= String.length s.
Proof.
  intros H. apply contains_split in H as (l & r & ->).
  rewrite !length_append. lia.
Qed.

Lemma endswith_split (p s : string) :
  endswith p s = true <-> exists l, s = l ++ p.
Proof.
  split.
  - induction s as [|y s IH]; cbn [endswith]; intros H.
    + rewrite orb_false_r in H. apply String.eqb_eq in H as <-.
      now exists EmptyString.
    + apply orb_true_iff in H as [H|H].
      * apply String.eqb_eq in H as <-. now exists EmptyString.
      * destruct (IH H) as [l ->]. now exists (String y l).
  - intros [l ->]. induction l as [|y l IH].
    + change (EmptyString ++ p) with p.
      destruct p; cbn [endswith]; now rewrite String.eqb_refl.
    + change (String y l ++ p) with (String y (l ++ p)).
      cbn [endswith]. rewrite IH. apply orb_true_r.
Qed.

Lemma has_char_append (c : ascii) (a b : string) :
  has_char c (a ++ b) = has_char c a || has_char c b.
Proof.
  induction a as [|x a IH]; simpl; [reflexivity|].
  now rewrite IH, orb_assoc.
Qed.

Lemma has_char_contains (c : ascii) (sub s : string) :
  contains sub s = true -> has_char c sub = true -> has_char c s = true.
Proof.
  intros H Hc. apply contains_split in H as (l & r & ->).
  rewrite !has_char_append, Hc. now rewrite orb_true_r.
Qed.

Lemma replace_append (old new : ascii) (a b : string) :
  replace old new (a ++ b) = replace old new a ++ replace old new b.
Proof. induction a as [|x a IH]; simpl; [reflexivity | now rewrite IH]. Qed.

Lemma replace_absent (old new : ascii) (s : string) :
  has_char old s = false -> replace old new s = s.
Proof.
  induction s as [|x s IH]; simpl; intros H; [reflexivity|].
  apply orb_false_iff in H as [Hx Hs]. now rewrite Hx, IH.
Qed.

Lemma has_char_replace_old (old new : ascii) (s : string) :
  new <> old -> has_char old (replace old new s) = false.
Proof.
  intros ne. induction s as [|x s IH]; simpl; [reflexivity|].
  rewrite IH, orb_false_r.
  destruct (Ascii.eqb_spec x old) as [->|nx].
  - now apply Ascii.eqb_neq.
  - now apply Ascii.eqb_neq.
Qed.

Lemma has_char_replace_other (c old new : ascii) (s : string) :
  c <> new -> has_char c s = false -> has_char c (replace old new s) = false.
Proof.
  intros ne. induction s as [|x s IH]; simpl; intros H; [reflexivity|].
  apply orb_false_iff in H as [Hx Hs]. rewrite (IH Hs), orb_false_r.
  destruct (x =? old)%char; [|exact Hx].
  apply Ascii.eqb_neq. congruence.
Qed.

Lemma contains_replace (old new : ascii) (sub s : string) :
  contains sub s = true ->
  contains (replace old new sub) (replace old new s) = true.
Proof.
  rewrite !contains_split. intros (l & r & ->).
  exists (replace old new l), (replace old new r).
  now rewrite !replace_append.
Qed.

Lemma join_member (sep x : string) (l : list string) :
  In x l -> contains x (join sep l) = true.
Proof.
  induction l as [|y l IH]; intros Hin; [contradiction|].
  destruct Hin as [->|Hin].
  - destruct l as [|z l]; cbn [join].
    + rewrite <- (append_empty_r x) at 2.
      apply (contains_mid EmptyString x EmptyString).
    + apply (contains_mid EmptyString x).
  - specialize (IH Hin). destruct l as [|z l]; [contradiction|].
    cbn [join] in *. apply contains_split in IH as (a & b & E).
    apply contains_split. exists (y ++ sep ++ a), b.
    now rewrite E, !append_assoc.
Qed.

End StringFacts.

(** ** Facts about [repr] and the brace substitution *)

Section ReprFacts.

Import Py.

Lemma brace_subst_cons (c : ascii) (s : string) :
  brace_subst (String c s) = String (brace_char c) (brace_subst s).
Proof. reflexivity. Qed.

Lemma brace_subst_append (a b : string) :
  brace_subst (a ++ b) = brace_subst a ++ brace_subst b.
Proof. unfold brace_subst. now rewrite !replace_append. Qed.

Lemma brace_subst_absent (s : string) :
  has_brace s = false -> brace_subst s = s.
Proof.
  unfold has_brace, brace_subst. intros H.
  apply orb_false_iff in H as [Ho Hc].
  now rewrite (replace_absent _ _ _ Ho), (replace_absent _ _ _ Hc).
Qed.

Lemma brace_subst_no_brace (s : string) : has_brace (brace_subst s) = false.
Proof.
  unfold has_brace, brace_subst. apply orb_false_iff. split.
  - apply has_char_replace_other; [discriminate|].
    apply has_char_replace_old. discriminate.
  - apply has_char_replace_old. discriminate.
Qed.

Lemma has_brace_append (a b : string) :
  has_brace (a ++ b) = has_brace a || has_brace b.
Proof.
  unfold has_brace. rewrite !has_char_append.
  destruct (has_char "{" a), (has_char "{" b), (has_char "}" a); reflexivity.
Qed.

Lemma has_brace_contains (sub s : string) :
  has_brace sub = true -> has_brace s = false -> contains sub s = false.
Proof.
  intros Hs Hn. destruct (contains sub s) eqn:E; [|reflexivity].
  apply contains_split in E as (l & r & ->).
  rewrite !has_brace_append, Hs in Hn.
  now rewrite orb_true_r in Hn.
Qed.

Lemma has_char_brace_subst (c : ascii) (s : string) :
  c = squote \/ c = dquote ->
  has_char c (brace_subst s) = has_char c s.
Proof.
  intros Hc. induction s as [|x s IH]; [reflexivity|].
  rewrite brace_subst_cons. cbn [has_char]. rewrite IH. f_equal.
  unfold brace_char.
  destruct (Ascii.eqb_spec x "{") as [->|_];
    [|destruct (Ascii.eqb_spec x "}") as [->|_]];
    try reflexivity; destruct Hc as [->| ->]; reflexivity.
Qed.

Lemma repr_quote_cases (s : string) :
  repr_quote s = squote \/ repr_quote s = dquote.
Proof. unfold repr_quote. destruct (_ && _); auto. Qed.

Lemma repr_quote_brace_subst (s : string) :
  repr_quote (brace_subst s) = repr_quote s.
Proof.
  unfold repr_quote. now rewrite !has_char_brace_subst by auto.
Qed.

(** Escaping and substituting commute on every character. *)
Lemma repr_char_brace_subst (q c : ascii) :
  q = squote \/ q = dquote ->
  brace_subst (repr_char q c) = repr_char q (brace_char c).
Proof.
  intros [-> | ->]; destruct c as [[] [] [] [] [] [] [] []];
    vm_compute; reflexivity.
Qed.

Lemma repr_body_brace_subst (q : ascii) (s : string) :
  q = squote \/ q = dquote ->
  brace_subst (repr_body q s) = repr_body q (brace_subst s).
Proof.
  intros Hq. induction s as [|c s IH]; [reflexivity|].
  rewrite brace_subst_cons. cbn [repr_body].
  now rewrite brace_subst_append, IH, repr_char_brace_subst.
Qed.

Lemma repr_str_brace_subst (s : string) :
  brace_subst (repr_str s) = repr_str (brace_subst s).
Proof.
  unfold repr_str. rewrite repr_quote_brace_subst.
  pose proof (repr_quote_cases s) as Hq.
  rewrite brace_subst_cons, brace_subst_append, repr_body_brace_subst by auto.
  destruct Hq as [-> | ->]; reflexivity.
Qed.

Lemma string_of_uint_no_brace (d : Decimal.uint) :
  has_brace (NilEmpty.string_of_uint d) = false.
Proof. induction d; simpl; auto. Qed.

Lemma repr_int_no_brace (n : Z) : has_brace (repr_int n) = false.
Proof.
  unfold repr_int, NilZero.string_of_int, NilZero.string_of_uint.
  destruct (Z.to_int n) as [d|d]; destruct d;
    try reflexivity; apply string_of_uint_no_brace.
Qed.

Lemma repr_char_verbatim (q c : ascii) :
  (c =? q)%char = false -> (c =? backslash)%char = false ->
  isprintable c = true -> repr_char q c = str1 c.
Proof.
  intros Hq Hb Hp. unfold repr_char. rewrite Hq, Hb. cbn [orb].
  destruct (Ascii.eqb_spec c tab) as [->|_]; [discriminate|].
  destruct (Ascii.eqb_spec c lf) as [->|_]; [discriminate|].
  destruct (Ascii.eqb_spec c cr) as [->|_]; [discriminate|].
  now rewrite Hp.
Qed.

Lemma repr_body_verbatim (q : ascii) (s : string) :
  has_char q s = false ->
  all_chars (fun c => isprintable c && negb (c =? backslash)%char) s = true ->
  repr_body q s = s.
Proof.
  induction s as [|c s IH]; cbn [has_char all_chars repr_body];
    intros Hq Ha; [reflexivity|].
  apply orb_false_iff in Hq as [Hc Hq].
  apply andb_true_iff in Ha as [Hp Ha].
  apply andb_true_iff in Hp as [Hp Hb]. apply negb_true_iff in Hb.
  now rewrite repr_char_verbatim, IH.
Qed.

(** On such texts [repr] adds the quotes and nothing else. *)
Lemma repr_str_verbatim (s : string) :
  repr_verbatim s = true ->
  repr_str s = String (repr_quote s) (s ++ str1 (repr_quote s)).
Proof.
  unfold repr_verbatim, repr_str. intros H.
  apply andb_true_iff in H as [Ha Hq]. apply negb_true_iff in Hq.
  rewrite repr_body_verbatim; [reflexivity| |exact Ha].
  unfold repr_quote.
  destruct (has_char squote s) eqn:Es, (has_char dquote s) eqn:Ed;
    cbn [andb negb] in *; congruence.
Qed.

Lemma contains_repr_str_verbatim (s : string) :
  repr_verbatim s = true -> contains s (repr_str s) = true.
Proof.
  intros H. rewrite (repr_str_verbatim s H).
  apply (contains_mid (str1 (repr_quote s)) s (str1 (repr_quote s))).
Qed.

End ReprFacts.

(** ** The record list as [Assistant.book_info] prints it *)

Section InfoStr.

Import Py.

Lemma BookInfo_repr_brace_subst (b : BookInfo) :
  brace_subst (BookInfo_repr b) = BookInfo_repr (subst_book b).
Proof.
  unfold BookInfo_repr, subst_book. cbn [join title author year].
  rewrite !brace_subst_append, !repr_str_brace_subst.
  now rewrite (brace_subst_absent _ (repr_int_no_brace (year b))).
Qed.

Lemma join_brace_subst (sep : string) (l : list string) :
  brace_subst (join sep l) = join (brace_subst sep) (map brace_subst l).
Proof.
  induction l as [|x l IH]; [reflexivity|].
  destruct l as [|y l]; [reflexivity|].
  change (join sep (x :: y :: l)) with (x ++ sep ++ join sep (y :: l)).
  rewrite !brace_subst_append, IH. reflexivity.
Qed.

(** The substitution on the printed list is the printed list of the
    substituted records. *)
Lemma info_str_subst_book (msg : BookInfoTool) :
  info_str msg = str_list (map BookInfo_repr (map subst_book (info msg))).
Proof.
  unfold info_str. fold (brace_subst (str_list (map BookInfo_repr (info msg)))).
  unfold str_list. rewrite !brace_subst_append, join_brace_subst, !map_map.
  f_equal. f_equal.
  - f_equal. apply map_ext. intros b. apply BookInfo_repr_brace_subst.
Qed.

Lemma info_str_no_brace (msg : BookInfoTool) : has_brace (info_str msg) = false.
Proof. apply brace_subst_no_brace. Qed.

Lemma info_str_record (msg : BookInfoTool) (b : BookInfo) :
  In b (info msg) ->
  contains (BookInfo_repr (subst_book b)) (info_str msg) = true.
Proof.
  intros Hin. rewrite info_str_subst_book. unfold str_list.
  apply contains_trans with (b := join ", " (map BookInfo_repr (map subst_book (info msg)))).
  - apply join_member. rewrite map_map.
    apply (in_map (fun x => BookInfo_repr (subst_book x))). exact Hin.
  - apply contains_mid.
Qed.

Lemma BookInfo_repr_fields (b : BookInfo) :
  contains (repr_str (title b)) (BookInfo_repr b) = true /\
  contains (repr_str (author b)) (BookInfo_repr b) = true /\
  contains (repr_int (year b)) (BookInfo_repr b) = true.
Proof.
  unfold BookInfo_repr. cbn [join]. repeat split; apply contains_split.
  - exists "BookInfo(title=",
      ((", " ++ ("author=" ++ repr_str (author b)) ++ ", " ++
        "year=" ++ repr_int (year b)) ++ ")").
    now rewrite !append_assoc.
  - exists ("BookInfo(title=" ++ repr_str (title b) ++ ", author="),
      ((", " ++ "year=" ++ repr_int (year b)) ++ ")").
    now rewrite !append_assoc.
  - exists ("BookInfo(title=" ++ repr_str (title b) ++ ", author=" ++
            repr_str (author b) ++ ", year="), ")".
    now rewrite !append_assoc.
Qed.

Lemma info_str_fields (msg : BookInfoTool) (b : BookInfo) :
  In b (info msg) ->
  contains (repr_str (brace_subst (title b))) (info_str msg) = true /\
  contains (repr_str (brace_subst (author b))) (info_str msg) = true /\
  contains (repr_int (year b)) (info_str msg) = true.
Proof.
  intros Hin. pose proof (info_str_record msg b Hin) as Hr.
  destruct (BookInfo_repr_fields (subst_book b)) as (Ht & Ha & Hy).
  repeat split; eapply contains_trans; eauto.
Qed.

Lemma book_info_text (SEND_TO : string) (Agent : Type) (self : Agent)
    (msg : BookInfoTool) :
  fst (book_info SEND_TO self msg) =
  (SEND_TO ++ book_info_header) ++ info_str msg ++ book_info_trailer.
Proof. unfold book_info. cbn [fst]. now rewrite append_assoc. Qed.

Lemma book_info_contains_info_str (SEND_TO : string) (Agent : Type)
    (self : Agent) (msg : BookInfoTool) :
  contains (info_str msg) (fst (book_info SEND_TO self msg)) = true.
Proof. rewrite book_info_text. apply contains_mid. Qed.

Lemma book_info_startswith (SEND_TO : string) (Agent : Type) (self : Agent)
    (msg : BookInfoTool) :
  startswith (SEND_TO ++ "LLM") (fst (book_info SEND_TO self msg)) = true.
Proof.
  assert (exists r, fst (book_info SEND_TO self msg) = (SEND_TO ++ "LLM") ++ r)
    as [r ->].
  { eexists. rewrite append_assoc. unfold book_info. cbn [fst].
    f_equal. reflexivity. }
  apply prefix_append.
Qed.

Lemma book_info_endswith (SEND_TO : string) (Agent : Type) (self : Agent)
    (msg : BookInfoTool) :
  endswith (info_str msg ++ book_info_trailer)
    (fst (book_info SEND_TO self msg)) = true.
Proof.
  rewrite book_info_text. apply endswith_split. now eexists.
Qed.

Lemma book_info_no_brace (SEND_TO : string) (Agent : Type) (self : Agent)
    (msg : BookInfoTool) :
  has_brace SEND_TO = false ->
  has_brace (fst (book_info SEND_TO self msg)) = false.
Proof.
  intros H. rewrite book_info_text, !has_brace_append, H, info_str_no_brace.
  reflexivity.
Qed.

End InfoStr.

(** ** The info-delivery handlers *)

(** C1, as the code has it: for every payload, the text returned by
    [Assistant.book_info] starts with the routing marker [SEND_TO] followed
    by the recipient [LLM]; ends with the printed record list and the fixed
    line break and indentation of the template; holds, for every record, the
    [repr] of its title and of its author with the curly braces turned into
    square brackets, and its year in decimal; holds title and author as they
    are when they have no curly brace and [repr] only quotes them; and has
    no curly brace when [SEND_TO] has none. *)
Theorem book_info_delivers (SEND_TO : string) (Agent : Type) (self : Agent)
    (msg : BookInfoTool) :
  let out := fst (book_info SEND_TO self msg) in
  Py.startswith (SEND_TO ++ "LLM") out = true /\
  Py.endswith (info_str msg ++ book_info_trailer) out = true /\
  (forall b, In b (info msg) ->
     Py.contains (Py.repr_str (brace_subst (title b))) out = true /\
     Py.contains (Py.repr_str (brace_subst (author b))) out = true /\
     Py.contains (Py.repr_int (year b)) out = true) /\
  (forall b, In b (info msg) ->
     (has_brace (title b) = false -> repr_verbatim (title b) = true ->
      Py.contains (title b) out = true) /\
     (has_brace (author b) = false -> repr_verbatim (author b) = true ->
      Py.contains (author b) out = true)) /\
  (has_brace SEND_TO = false -> has_brace out = false).
Proof.
  cbv zeta.
  pose proof (book_info_contains_info_str SEND_TO Agent self msg) as Hinfo.
  split; [apply book_info_startswith|].
  split; [apply book_info_endswith|].
  split; [|split].
  - intros b Hin. destruct (info_str_fields msg b Hin) as (Ht & Ha & Hy).
    repeat split; eapply contains_trans; eauto.
  - intros b Hin. destruct (info_str_fields msg b Hin) as (Ht & Ha & _).
    split; intros Hb Hv.
    + rewrite (brace_subst_absent _ Hb) in Ht.
      eapply contains_trans; [apply contains_repr_str_verbatim, Hv|].
      eapply contains_trans; eauto.
    + rewrite (brace_subst_absent _ Hb) in Ha.
      eapply contains_trans; [apply contains_repr_str_verbatim, Hv|].
      eapply contains_trans; eauto.
  - apply book_info_no_brace.
Qed.

(** The theorem on the payload of [BookInfoTool.examples]: both titles are
    in the text, which has no curly brace. *)
Lemma book_info_delivers_example :
  Py.contains "The Hobbit"
    (fst (book_info Markers.SEND_TO tt example_payload)) = true /\
  Py.contains "The Great Gatsby"
    (fst (book_info Markers.SEND_TO tt example_payload)) = true /\
  has_brace (fst (book_info Markers.SEND_TO tt example_payload)) = false.
Proof.
  destruct (book_info_delivers Markers.SEND_TO unit tt example_payload)
    as (_ & _ & _ & Hv & Hb).
  split; [|split].
  - apply (Hv (mkBookInfo "The Hobbit" "J.R.R. Tolkien" 1937));
      [left; reflexivity | reflexivity | reflexivity].
  - apply (Hv (mkBookInfo "The Great Gatsby" "F. Scott Fitzgerald" 1925));
      [right; left; reflexivity | reflexivity | reflexivity].
  - apply Hb. reflexivity.
Defined.

(** C1, as the specification words it, fails on the code. On a payload whose
    title has curly braces the text of [Assistant.book_info] does not hold
    the title; and on the payload of [BookInfoTool.examples] it does not end
    with the terminal markers. *)
Lemma delivers_as_specified_fails :
  ~ delivers_as_specified Markers.DONE Markers.PASS Markers.SEND_TO
      braces_payload (fst (book_info Markers.SEND_TO tt braces_payload)) /\
  ~ delivers_as_specified Markers.DONE Markers.PASS Markers.SEND_TO
      example_payload (fst (book_info Markers.SEND_TO tt example_payload)).
Proof.
  split.
  - intros (Hr & _).
    destruct (Hr (mkBookInfo "{Set} Theory" "A. {B}" 2001)) as (Ht & _);
      [left; reflexivity|].
    vm_compute in Ht. discriminate.
  - intros (_ & _ & _ & He). vm_compute in He. discriminate.
Qed.

(** C2, as the code has it: for every payload, [BookInfoTool.handle] returns
    the two sentinel markers, [DONE] then [PASS] with a space between, and
    nothing of the payload; the restatement is the work of the other
    handler, [Assistant.book_info], whose text starts with [SEND_TO] and
    [LLM] and holds the printed record list with its curly braces turned
    into square brackets. *)
Theorem handle_signals_book_info_restates (DONE PASS SEND_TO : string)
    (Agent : Type) (self : Agent) (msg : BookInfoTool) :
  handle DONE PASS msg = DONE ++ " " ++ PASS /\
  Py.startswith DONE (handle DONE PASS msg) = true /\
  Py.endswith PASS (handle DONE PASS msg) = true /\
  Py.startswith (SEND_TO ++ "LLM") (fst (book_info SEND_TO self msg)) = true /\
  Py.contains
    (brace_subst (Py.str_list (map BookInfo_repr (info msg))))
    (fst (book_info SEND_TO self msg)) = true.
Proof.
  split; [reflexivity|].
  split; [apply prefix_append|].
  split; [apply endswith_split; now exists (DONE ++ " "); rewrite append_assoc|].
  split; [apply book_info_startswith|].
  apply book_info_contains_info_str.
Qed.

(** C2, as the specification words it, fails on the code: on the payload of
    [BookInfoTool.examples] neither handler returns both a restatement and
    the two sentinel markers. [handle] restates nothing, and the text of
    [book_info] has no [DONE] in it. *)
Lemma restates_and_signals_fails :
  ~ restates_and_signals Markers.DONE Markers.PASS example_payload
      (handle Markers.DONE Markers.PASS example_payload) /\
  ~ restates_and_signals Markers.DONE Markers.PASS example_payload
      (fst (book_info Markers.SEND_TO tt example_payload)).
Proof.
  split.
  - intros (Hr & _).
    destruct (Hr (mkBookInfo "The Hobbit" "J.R.R. Tolkien" 1937)) as (Ht & _);
      [left; reflexivity|].
    vm_compute in Ht. discriminate.
  - intros (_ & Hd & _). vm_compute in Hd. discriminate.
Qed.

(** C4: delivering the same payload twice gives the same text. The second
    call runs on the agent the first call left, which is the agent as it
    was; and the text is the same on any other agent. *)
Theorem book_info_deterministic (SEND_TO : string) (Agent : Type)
    (self self' : Agent) (msg : BookInfoTool) :
  snd (book_info SEND_TO self msg) = self /\
  fst (book_info SEND_TO (snd (book_info SEND_TO self msg)) msg) =
    fst (book_info SEND_TO self msg) /\
  fst (book_info SEND_TO self' msg) = fst (book_info SEND_TO self msg).
Proof. repeat split. Qed.

(** C5: the two replacements reach every curly brace of the printed record
    list, those of the titles and authors too. The result is the printed
    list of the records with the braces of each title and author turned into
    square brackets, it has no curly brace, and so a title or author with a
    curly brace is not in the text as it was: it is there with square
    brackets. *)
Theorem braces_replaced_inside_fields (SEND_TO : string) (Agent : Type)
    (self : Agent) (msg : BookInfoTool) :
  info_str msg = Py.str_list (map BookInfo_repr (map subst_book (info msg))) /\
  has_brace (info_str msg) = false /\
  (forall b, In b (info msg) ->
     Py.contains (Py.repr_str (brace_subst (title b)))
       (fst (book_info SEND_TO self msg)) = true /\
     Py.contains (Py.repr_str (brace_subst (author b)))
       (fst (book_info SEND_TO self msg)) = true /\
     (has_brace (title b) = true ->
      Py.contains (title b) (info_str msg) = false) /\
     (has_brace (author b) = true ->
      Py.contains (author b) (info_str msg) = false)) /\
  (has_brace SEND_TO = false ->
   forall b, In b (info msg) ->
     (has_brace (title b) = true ->
      Py.contains (title b) (fst (book_info SEND_TO self msg)) = false) /\
     (has_brace (author b) = true ->
      Py.contains (author b) (fst (book_info SEND_TO self msg)) = false)).
Proof.
  split; [apply info_str_subst_book|].
  split; [apply info_str_no_brace|].
  split.
  - intros b Hin.
    pose proof (book_info_contains_info_str SEND_TO Agent self msg) as Hinfo.
    destruct (info_str_fields msg b Hin) as (Ht & Ha & _).
    repeat split;
      try (eapply contains_trans; eassumption);
      intros Hb; apply has_brace_contains; auto using info_str_no_brace.
  - intros Hs b _. split; intros Hb;
      apply has_brace_contains; auto using book_info_no_brace.
Qed.

(** The theorem on a payload whose title and author have curly braces. *)
Lemma braces_replaced_example :
  Py.contains "'[Set] Theory'"
    (fst (book_info Markers.SEND_TO tt braces_payload)) = true /\
  Py.contains "{Set} Theory"
    (fst (book_info Markers.SEND_TO tt braces_payload)) = false /\
  Py.contains "'A. [B]'"
    (fst (book_info Markers.SEND_TO tt braces_payload)) = true /\
  Py.contains "A. {B}"
    (fst (book_info Markers.SEND_TO tt braces_payload)) = false.
Proof.
  destruct (braces_replaced_inside_fields Markers.SEND_TO unit tt braces_payload)
    as (_ & _ & Hin & Hout).
  destruct (Hin (mkBookInfo "{Set} Theory" "A. {B}" 2001)) as (Ht & Ha & _);
    [left; reflexivity|].
  destruct (Hout eq_refl (mkBookInfo "{Set} Theory" "A. {B}" 2001))
    as (Hnt & Hna); [left; reflexivity|].
  split; [exact Ht|]. split; [exact (Hnt eq_refl)|].
  split; [exact Ha | exact (Hna eq_refl)].
Defined.

(** C6: [BookInfoTool.handle] is a constant function. Whatever the payload,
    it returns [DONE], a space and [PASS]; two payloads get the same text;
    and the text restates no payload as such: whatever the markers are,
    there is a one-record payload whose title is not in it. *)
Theorem handle_constant (DONE PASS : string) (msg msg' : BookInfoTool) :
  handle DONE PASS msg = DONE ++ " " ++ PASS /\
  handle DONE PASS msg = handle DONE PASS msg' /\
  exists b, ~ restates (BookInfoTool_new [b]) (handle DONE PASS msg).
Proof.
  split; [reflexivity|]. split; [reflexivity|].
  exists (mkBookInfo (String "x" (DONE ++ " " ++ PASS)) EmptyString 0).
  intros Hr. destruct (Hr _ (or_introl eq_refl)) as (Ht & _).
  apply contains_length in Ht. unfold handle in Ht. cbn [title String.length] in Ht.
  lia.
Qed.

(** ** The fallback nudge *)

(** C3: [Extractor.handle_message_fallback] returns a text exactly when
    [has_tool_message_attempt] flags the message, and [None] exactly when it
    does not. The text is not empty and it is corrective: it says that the
    tool, named in double quotes by the [request] of [BookInfoTool], must be
    used to present the info, that it was forgotten or used with the wrong
    format, and that all fields are to be filled out with the required
    types. *)
Theorem fallback_nudge_iff (Agent ChatDocument : Type)
    (has_tool_message_attempt :
       Agent -> @Message ChatDocument -> bool * Agent * @Message ChatDocument)
    (self : Agent) (msg : @Message ChatDocument) :
  let result :=
    fst (fst (handle_message_fallback has_tool_message_attempt self msg)) in
  let flagged := fst (fst (has_tool_message_attempt self msg)) in
  ((exists s,
      result = Some s /\ s <> EmptyString /\
      Py.contains
        ("You must use the " ++ Py.str1 Py.dquote ++
         request (BookInfoTool_new []) ++ Py.str1 Py.dquote ++
         " tool to present the info.") s = true /\
      Py.contains
        "You either forgot to use it, or you used it with the wrong format."
        s = true /\
      Py.contains
        "Make sure all fields are filled out and pay attention to the " s
        = true /\
      Py.contains "required types of the fields." s = true) <->
   flagged = true) /\
  (result = Some nudge <-> flagged = true) /\
  (result = None <-> flagged = false).
Proof.
  cbv zeta. unfold handle_message_fallback.
  destruct (has_tool_message_attempt self msg) as [[[] self'] msg'];
    cbn [fst]; repeat split; try discriminate; try reflexivity.
  - intros _. exists nudge.
    repeat split; try discriminate; vm_compute; reflexivity.
  - intros (s & H & _). discriminate.
Qed.




(** ** The command line, the configuration and the task wiring *)

(** C7: [chat] takes three options. Left out, the model name is the empty
    string, and the empty string selects [GPT4_TURBO]; debug is off; the
    cache is not disabled. The global settings get the debug flag, and for
    [cache] the negation of the cache-disable flag, so by default the cache
    is on. *)
Theorem chat_cli_defaults (NO_ANSWER : string) :
  chat_cli NO_ANSWER None None None = chat NO_ANSWER EmptyString false false /\
  (forall model debug no_cache,
     chat_cli NO_ANSWER (Some model) (Some debug) (Some no_cache) =
     chat NO_ANSWER model debug no_cache) /\
  (forall model debug no_cache,
     global_settings (chat NO_ANSWER model debug no_cache) =
     [Settings.mk debug (negb no_cache)]) /\
  global_settings (chat_cli NO_ANSWER None None None) =
    [Settings.mk false true] /\
  (forall model debug no_cache,
     map (fun c => OpenAIGPTConfig.chat_model (DocChatAgentConfig.llm c))
       (doc_agent_configs (chat NO_ANSWER model debug no_cache)) =
     [model_or model GPT4_TURBO]) /\
  model_or EmptyString GPT4_TURBO = GPT4_TURBO /\
  (forall c s, model_or (String c s) GPT4_TURBO = ModelName (String c s)).
Proof. repeat split. Qed.

(** C8: the calls of [chat] make the Assistant task the parent of the
    Extractor task and the Extractor task the parent of the DocAgent task,
    and the Assistant task has no parent. These are the last calls but one,
    and the last call is [run] on the Assistant task, the only [run]. *)
Theorem task_chain_declared_then_run (NO_ANSWER model : string)
    (debug no_cache : bool) :
  let calls := chat NO_ANSWER model debug no_cache in
  let g := TaskGraph.exec calls in
  option_map TaskArgs.name (task_args calls assistant_task) = Some "Assistant" /\
  option_map TaskArgs.name (task_args calls extractor_task) = Some "Extractor" /\
  option_map TaskArgs.name (task_args calls doc_task) = Some "DocAgent" /\
  option_map TaskArgs.agent (task_args calls assistant_task) = Some assistant_agent /\
  option_map TaskArgs.agent (task_args calls extractor_task) = Some extractor_agent /\
  option_map TaskArgs.agent (task_args calls doc_task) = Some doc_agent /\
  TaskGraph.parent_task g extractor_task = Some assistant_task /\
  TaskGraph.parent_task g doc_task = Some extractor_task /\
  TaskGraph.parent_task g assistant_task = None /\
  TaskGraph.sub_tasks g assistant_task = [extractor_task] /\
  TaskGraph.sub_tasks g extractor_task = [doc_task] /\
  TaskGraph.sub_tasks g doc_task = [] /\
  TaskGraph.entered g = [assistant_task] /\
  exists before,
    calls =
      (before ++
       [ add_sub_task assistant_task [extractor_task];
         add_sub_task extractor_task [doc_task];
         run assistant_task ])%list /\
    TaskGraph.entered (TaskGraph.exec before) = [].
Proof.
  cbv zeta. repeat (split; [reflexivity|]).
  eexists (firstn 13 (chat NO_ANSWER model debug no_cache)).
  split; reflexivity.
Qed.

(** C9: whatever the options, the one document-answering agent is built
    with a vector store of collection [book_info], to be replaced, at the
    fixed path [.lancedb/data/]. *)
Theorem vecdb_replaces_collection (NO_ANSWER model : string)
    (debug no_cache : bool) :
  let cfgs := doc_agent_configs (chat NO_ANSWER model debug no_cache) in
  length cfgs = 1 /\
  Forall
    (fun c =>
       LanceDBConfig.replace_collection (DocChatAgentConfig.vecdb c) = true /\
       LanceDBConfig.storage_path (DocChatAgentConfig.vecdb c) = ".lancedb/data/" /\
       LanceDBConfig.collection_name (DocChatAgentConfig.vecdb c) = "book_info")
    cfgs.
Proof.
  cbv zeta. split; [reflexivity|].
  repeat constructor.
Qed.

(** * Further properties of the code *)

(** ** Facts about printable text and counting *)

Section PrintableFacts.

Import Py.

Lemma all_chars_append (p : ascii -> bool) (a b : string) :
  all_chars p (a ++ b) = all_chars p a && all_chars p b.
Proof.
  induction a as [|x a IH]; simpl; [reflexivity|].
  now rewrite IH, andb_assoc.
Qed.

Lemma all_chars_contains (p : ascii -> bool) (sub s : string) :
  contains sub s = true -> all_chars p s = true -> all_chars p sub = true.
Proof.
  intros H Hs. apply contains_split in H as (l & r & ->).
  rewrite !all_chars_append in Hs.
  apply andb_true_iff in Hs as [_ Hs]. now apply andb_true_iff in Hs as [Hs _].
Qed.

Lemma all_chars_has_char (p : ascii -> bool) (c : ascii) (s : string) :
  p c = false -> all_chars p s = true -> has_char c s = false.
Proof.
  intros Hc. induction s as [|x s IH]; simpl; intros H; [reflexivity|].
  apply andb_true_iff in H as [Hx Hs]. rewrite (IH Hs), orb_false_r.
  apply Ascii.eqb_neq. intros ->. congruence.
Qed.

Lemma count_char_append (c : ascii) (a b : string) :
  count_char c (a ++ b) = count_char c a + count_char c b.
Proof. induction a as [|x a IH]; simpl; [reflexivity | rewrite IH; lia]. Qed.

Lemma count_char_absent (c : ascii) (s : string) :
  has_char c s = false -> count_char c s = 0.
Proof.
  induction s as [|x s IH]; simpl; intros H; [reflexivity|].
  apply orb_false_iff in H as [Hx Hs]. now rewrite Hx, IH.
Qed.

Lemma brace_char_printable (c : ascii) :
  isprintable c = true -> isprintable (brace_char c) = true.
Proof.
  unfold brace_char.
  destruct (Ascii.eqb_spec c "{") as [->|_]; [reflexivity|].
  destruct (Ascii.eqb_spec c "}") as [->|_]; [reflexivity | trivial].
Qed.

Lemma brace_subst_printable (s : string) :
  all_chars isprintable s = true ->
  all_chars isprintable (brace_subst s) = true.
Proof.
  induction s as [|c s IH]; [reflexivity|].
  rewrite brace_subst_cons. cbn [all_chars]. intros H.
  apply andb_true_iff in H as [Hc Hs].
  now rewrite brace_char_printable, IH.
Qed.

(** Whatever the character, [repr] writes it with printable ones. *)
Lemma repr_char_printable (q c : ascii) :
  q = squote \/ q = dquote -> all_chars isprintable (repr_char q c) = true.
Proof.
  intros [-> | ->]; destruct c as [[] [] [] [] [] [] [] []];
    vm_compute; reflexivity.
Qed.

Lemma repr_body_printable (q : ascii) (s : string) :
  q = squote \/ q = dquote -> all_chars isprintable (repr_body q s) = true.
Proof.
  intros Hq. induction s as [|c s IH]; [reflexivity|].
  cbn [repr_body]. now rewrite all_chars_append, repr_char_printable, IH.
Qed.

Lemma repr_str_printable (s : string) :
  all_chars isprintable (repr_str s) = true.
Proof.
  unfold repr_str. pose proof (repr_quote_cases s) as Hq.
  cbn [all_chars]. rewrite all_chars_append, repr_body_printable by exact Hq.
  destruct Hq as [-> | ->]; reflexivity.
Qed.

Lemma string_of_uint_printable (d : Decimal.uint) :
  all_chars isprintable (NilEmpty.string_of_uint d) = true.
Proof. induction d; simpl; auto. Qed.

Lemma repr_int_printable (n : Z) : all_chars isprintable (repr_int n) = true.
Proof.
  unfold repr_int, NilZero.string_of_int, NilZero.string_of_uint.
  destruct (Z.to_int n) as [d|d]; destruct d;
    try reflexivity; apply string_of_uint_printable.
Qed.

Lemma BookInfo_repr_printable (b : BookInfo) :
  all_chars isprintable (BookInfo_repr b) = true.
Proof.
  unfold BookInfo_repr. cbn [join].
  rewrite !all_chars_append, !repr_str_printable, repr_int_printable.
  reflexivity.
Qed.

Lemma join_printable (sep : string) (l : list string) :
  all_chars isprintable sep = true ->
  Forall (fun x => all_chars isprintable x = true) l ->
  all_chars isprintable (join sep l) = true.
Proof.
  intros Hsep Hl. induction Hl as [|x l Hx Hl IH]; [reflexivity|].
  destruct l as [|y l]; [exact Hx|].
  change (join sep (x :: y :: l)) with (x ++ sep ++ join sep (y :: l)).
  now rewrite !all_chars_append, Hx, Hsep, IH.
Qed.

Lemma info_str_printable (msg : BookInfoTool) :
  all_chars isprintable (info_str msg) = true.
Proof.
  unfold info_str. apply brace_subst_printable. unfold str_list.
  rewrite !all_chars_append, join_printable; [reflexivity..|].
  apply Forall_forall. intros x Hx. apply in_map_iff in Hx as (b & <- & _).
  apply BookInfo_repr_printable.
Qed.

End PrintableFacts.

(** ** Facts about curly braces under [repr] *)

Section BraceFacts.

Import Py.

Lemma brace_subst_idempotent (s : string) :
  brace_subst (brace_subst s) = brace_subst s.
Proof. apply brace_subst_absent, brace_subst_no_brace. Qed.

Lemma brace_subst_fixed (s : string) :
  brace_subst s = s -> has_brace s = false.
Proof. intros <-. apply brace_subst_no_brace. Qed.

(** [repr] writes a curly brace only for a curly brace. *)
Lemma repr_char_has_brace (q c : ascii) :
  q = squote \/ q = dquote ->
  has_brace (repr_char q c) = has_brace (str1 c).
Proof.
  intros [-> | ->]; destruct c as [[] [] [] [] [] [] [] []];
    vm_compute; reflexivity.
Qed.

Lemma repr_body_has_brace (q : ascii) (s : string) :
  q = squote \/ q = dquote -> has_brace (repr_body q s) = has_brace s.
Proof.
  intros Hq. induction s as [|c s IH]; [reflexivity|].
  cbn [repr_body]. rewrite has_brace_append, repr_char_has_brace, IH by exact Hq.
  change (String c s) with (str1 c ++ s). now rewrite has_brace_append.
Qed.

Lemma repr_str_has_brace (s : string) : has_brace (repr_str s) = has_brace s.
Proof.
  unfold repr_str. pose proof (repr_quote_cases s) as Hq.
  change (String (repr_quote s) (repr_body (repr_quote s) s ++ str1 (repr_quote s)))
    with (str1 (repr_quote s) ++ repr_body (repr_quote s) s ++ str1 (repr_quote s)).
  rewrite !has_brace_append, repr_body_has_brace by exact Hq.
  destruct Hq as [-> | ->]; cbn; now rewrite orb_false_r.
Qed.

Lemma BookInfo_repr_has_brace (b : BookInfo) :
  has_brace (BookInfo_repr b) = negb (brace_free b).
Proof.
  unfold BookInfo_repr, brace_free. cbn [join].
  rewrite !has_brace_append, !repr_str_has_brace, repr_int_no_brace.
  cbn. rewrite !orb_false_r.
  now destruct (has_brace (title b)), (has_brace (author b)).
Qed.

Lemma join_has_brace (l : list string) :
  has_brace (join ", " l) = existsb has_brace l.
Proof.
  induction l as [|x l IH]; [reflexivity|].
  destruct l as [|y l]; [cbn; now rewrite orb_false_r|].
  change (join ", " (x :: y :: l)) with (x ++ ", " ++ join ", " (y :: l)).
  rewrite !has_brace_append, IH. reflexivity.
Qed.

Lemma str_list_has_brace (l : list BookInfo) :
  has_brace (str_list (map BookInfo_repr l)) = negb (forallb brace_free l).
Proof.
  unfold str_list. rewrite !has_brace_append, join_has_brace.
  cbn. rewrite orb_false_r.
  induction l as [|b l IH]; [reflexivity|].
  cbn [map existsb forallb]. rewrite IH, BookInfo_repr_has_brace.
  now rewrite negb_andb.
Qed.

Lemma map_fixed {A : Type} (f : A -> A) (l : list A) :
  map f l = l -> forall x, In x l -> f x = x.
Proof.
  induction l as [|y l IH]; intros E x Hin; [contradiction|].
  injection E as Ey El. destruct Hin as [<-|Hin]; auto.
Qed.

Lemma BookInfo_repr_length (b : BookInfo) :
  9 <= String.length (BookInfo_repr b).
Proof.
  unfold BookInfo_repr. rewrite length_append. cbn [String.length]. lia.
Qed.

(** The text of [Assistant.book_info] holds every field of a record that
    [repr] only quotes and that has no curly brace. *)
Lemma book_info_restates_plain (SEND_TO : string) (Agent : Type)
    (self : Agent) (msg : BookInfoTool) :
  forallb plain_book (info msg) = true ->
  restates msg (fst (book_info SEND_TO self msg)).
Proof.
  intros Hall b Hin.
  pose proof (proj1 (forallb_forall _ _) Hall b Hin) as Hp.
  unfold plain_book, brace_free in Hp.
  apply andb_true_iff in Hp as [Hp Hva]. apply andb_true_iff in Hp as [Hb Hvt].
  apply andb_true_iff in Hb as [Hbt Hba].
  apply negb_true_iff in Hbt, Hba.
  pose proof (book_info_contains_info_str SEND_TO Agent self msg) as Hinfo.
  destruct (info_str_fields msg b Hin) as (Ht & Ha & Hy).
  rewrite (brace_subst_absent _ Hbt) in Ht.
  rewrite (brace_subst_absent _ Hba) in Ha.
  repeat split.
  - eapply contains_trans; [apply contains_repr_str_verbatim, Hvt|].
    eapply contains_trans; eassumption.
  - eapply contains_trans; [apply contains_repr_str_verbatim, Hva|].
    eapply contains_trans; eassumption.
  - eapply contains_trans; eassumption.
Qed.

End BraceFacts.

(** ** The printed record list *)

(** X1: whatever the titles and authors hold, the record list that
    [Assistant.book_info] prints has printable characters only, so no line
    break and no tab; a title or author with a character that is not
    printable is therefore not in it as it was. *)
Theorem info_str_printable_only (msg : BookInfoTool) :
  all_chars Py.isprintable (info_str msg) = true /\
  Py.has_char Py.lf (info_str msg) = false /\
  Py.has_char Py.tab (info_str msg) = false /\
  (forall b, In b (info msg) ->
     (all_chars Py.isprintable (title b) = false ->
      Py.contains (title b) (info_str msg) = false) /\
     (all_chars Py.isprintable (author b) = false ->
      Py.contains (author b) (info_str msg) = false)).
Proof.
  pose proof (info_str_printable msg) as Hp.
  split; [exact Hp|].
  split; [now apply (all_chars_has_char Py.isprintable)|].
  split; [now apply (all_chars_has_char Py.isprintable)|].
  intros b _. split; intros Hn;
    (destruct (Py.contains _ (info_str msg)) eqn:E; [|reflexivity]);
    apply (all_chars_contains Py.isprintable) in E; congruence.
Qed.

(** The theorem on a payload whose title has a line break and whose author
    has a tab. *)
Lemma info_str_printable_only_example :
  Py.contains ("Two" ++ Py.nl ++ "Lines") (info_str control_payload) = false /\
  Py.contains ("A." ++ Py.str1 Py.tab ++ "B.") (info_str control_payload) = false /\
  Py.has_char Py.lf (info_str control_payload) = false.
Proof.
  destruct (info_str_printable_only control_payload) as (_ & Hlf & _ & Hf).
  destruct (Hf (mkBookInfo ("Two" ++ Py.nl ++ "Lines")
                  ("A." ++ Py.str1 Py.tab ++ "B.") 1999))
    as (Ht & Ha); [left; reflexivity|].
  split; [exact (Ht eq_refl)|]. split; [exact (Ha eq_refl) | exact Hlf].
Defined.

(** X2: the text of [Assistant.book_info] has the six line breaks of its
    template besides those of [SEND_TO], whatever the payload: the record
    list takes one line. *)
Theorem book_info_line_breaks (SEND_TO : string) (Agent : Type) (self : Agent)
    (msg : BookInfoTool) :
  count_char Py.lf (fst (book_info SEND_TO self msg)) =
  count_char Py.lf SEND_TO + 6.
Proof.
  rewrite book_info_text, !count_char_append.
  rewrite (count_char_absent Py.lf (info_str msg)).
  - cbn. lia.
  - apply (all_chars_has_char Py.isprintable); [reflexivity|].
    apply info_str_printable.
Qed.

(** X3: [Assistant.book_info] cannot tell curly braces from square brackets.
    A payload and the payload with the braces of its titles and authors
    turned into brackets give the same text, and these two payloads differ
    as soon as one record has a curly brace. *)
Theorem book_info_blind_to_braces (SEND_TO : string) (Agent : Type)
    (self : Agent) (msg : BookInfoTool) :
  fst (book_info SEND_TO self (subst_payload msg)) =
    fst (book_info SEND_TO self msg) /\
  (forallb brace_free (info msg) = false ->
   info (subst_payload msg) <> info msg).
Proof.
  split.
  - rewrite !book_info_text. f_equal. f_equal.
    rewrite !info_str_subst_book. cbn [subst_payload info].
    f_equal. rewrite !map_map. apply map_ext. intros b.
    unfold subst_book. cbn [title author year].
    now rewrite !brace_subst_idempotent.
  - intros Hb E. cbn [subst_payload info] in E.
    assert (forallb brace_free (info msg) = true) as Ht; [|congruence].
    apply forallb_forall. intros b Hin.
    pose proof (map_fixed subst_book _ E b Hin) as Eb.
    unfold brace_free.
    rewrite (brace_subst_fixed (title b)), (brace_subst_fixed (author b));
      [reflexivity| |]; destruct b; unfold subst_book in Eb; cbn in *;
      congruence.
Qed.

(** The theorem on a payload whose title and author have curly braces. *)
Lemma book_info_blind_to_braces_example :
  fst (book_info Markers.SEND_TO tt (subst_payload braces_payload)) =
    fst (book_info Markers.SEND_TO tt braces_payload) /\
  info (subst_payload braces_payload) <> info braces_payload.
Proof.
  destruct (book_info_blind_to_braces Markers.SEND_TO unit tt braces_payload)
    as (He & Hd).
  split; [exact He | exact (Hd eq_refl)].
Defined.

(** X4: the two replacements change the printed record list exactly when
    some title or author has a curly brace; otherwise the list is printed
    as [str] gives it. *)
Theorem info_str_unchanged_iff_brace_free (msg : BookInfoTool) :
  info_str msg = Py.str_list (map BookInfo_repr (info msg)) <->
  forallb brace_free (info msg) = true.
Proof.
  pose proof (str_list_has_brace (info msg)) as Hb.
  split.
  - intros E. rewrite <- E, info_str_no_brace in Hb.
    now destruct (forallb brace_free (info msg)).
  - intros Hf. rewrite Hf in Hb. apply brace_subst_absent. exact Hb.
Qed.

(** X5: the printed record list is [[]] exactly for the payload without
    records; [Assistant.book_info] then still returns its whole text around
    it. *)
Theorem info_str_empty_iff (SEND_TO : string) (Agent : Type) (self : Agent)
    (msg : BookInfoTool) :
  (info_str msg = "[]" <-> info msg = []) /\
  (info msg = [] ->
   fst (book_info SEND_TO self msg) =
   SEND_TO ++ book_info_header ++ "[]" ++ book_info_trailer).
Proof.
  assert (info msg = [] -> info_str msg = "[]") as Hempty.
  { intros E. unfold info_str. now rewrite E. }
  split; [split; [|exact Hempty]|].
  - intros E. destruct (info msg) as [|b l] eqn:Ei; [reflexivity|].
    assert (In b (info msg)) as Hin by (rewrite Ei; now left).
    apply info_str_record, contains_length in Hin.
    pose proof (BookInfo_repr_length (subst_book b)) as Hl.
    rewrite E in Hin. cbn [String.length] in Hin. lia.
  - intros E. unfold book_info. cbn [fst]. now rewrite (Hempty E).
Qed.

(** The theorem on the payload without records. *)
Lemma info_str_empty_example :
  fst (book_info Markers.SEND_TO tt (BookInfoTool_new [])) =
  Markers.SEND_TO ++ book_info_header ++ "[]" ++ book_info_trailer.
Proof.
  exact (proj2 (info_str_empty_iff Markers.SEND_TO unit tt (BookInfoTool_new []))
           eq_refl).
Defined.

(** X6: every payload of [BookInfoTool.examples] is restated in full by
    [Assistant.book_info], whatever [SEND_TO] is: each title, author and
    year is in the text as it is in the record. *)
Theorem examples_restated (SEND_TO : string) (Agent : Type) (self : Agent)
    (msg : BookInfoTool) :
  In msg examples -> restates msg (fst (book_info SEND_TO self msg)).
Proof.
  intros [<- | []]. apply book_info_restates_plain. reflexivity.
Qed.

(** The theorem on the first payload of [BookInfoTool.examples]. *)
Lemma examples_restated_example :
  Py.contains "F. Scott Fitzgerald"
    (fst (book_info Markers.SEND_TO tt example_payload)) = true /\
  Py.contains "1925"
    (fst (book_info Markers.SEND_TO tt example_payload)) = true.
Proof.
  destruct (examples_restated Markers.SEND_TO unit tt example_payload
              (or_introl eq_refl)
              (mkBookInfo "The Great Gatsby" "F. Scott Fitzgerald" 1925)
              (or_intror (or_introl eq_refl)))
    as (_ & Ha & Hy).
  split; [exact Ha | exact Hy].
Defined.

(** ** The prompts and the options of [chat] *)

Lemma contains_head (x r : string) : Py.contains x (x ++ r) = true.
Proof. apply (contains_mid EmptyString x r). Qed.

Lemma contains_skip (x a s : string) :
  Py.contains x s = true -> Py.contains x (a ++ s) = true.
Proof.
  intros H. apply contains_split in H as (l & r & ->).
  apply contains_split. exists (a ++ l), r. now rewrite append_assoc.
Qed.

(** X7: the corrective text of [Extractor.handle_message_fallback] and the
    Extractor's system message both name the tool by the [request] string
    that [BookInfoTool] declares, and the system message holds [NO_ANSWER],
    whatever it is. *)
Theorem prompts_name_the_tool (NO_ANSWER : string) (records : list BookInfo) :
  Py.contains
    (Py.str1 Py.dquote ++ request (BookInfoTool_new records) ++ Py.str1 Py.dquote)
    nudge = true /\
  Py.contains
    ("`" ++ request (BookInfoTool_new records) ++ "`")
    (extractor_system_message NO_ANSWER) = true /\
  Py.contains NO_ANSWER (extractor_system_message NO_ANSWER) = true.
Proof.
  split; [vm_compute; reflexivity|]. split; [vm_compute; reflexivity|].
  unfold extractor_system_message.
  repeat first [ apply contains_head | apply contains_skip ].
Qed.

(** X8: the options of [chat] reach only what they are for. The three agents
    get one and the same language-model configuration, which depends on the
    model name alone, and apart from the [set_global] call the calls do not
    depend on the debug and cache flags. *)
Theorem options_reach_only_their_calls (NO_ANSWER model : string)
    (debug no_cache debug' no_cache' : bool) :
  llm_configs (chat NO_ANSWER model debug no_cache) =
    repeat (OpenAIGPTConfig.mk (model_or model GPT4_TURBO) 16000) 3 /\
  without_set_global (chat NO_ANSWER model debug no_cache) =
    without_set_global (chat NO_ANSWER model debug' no_cache') /\
  length (without_set_global (chat NO_ANSWER model debug no_cache)) = 15.
Proof. repeat split. Qed.
